(** * adhoc_runxp.py: the selscan XP-EHH wrapper

    A shallow embedding of [adhoc_runxp.py] and the properties of its
    command line, its output and its exit status.

    The script reads [sys.argv], prints either a usage line or the command
    it has assembled, and calls [subprocess.check_output].  Its effects are
    modelled by a small monad that threads the trace of observable events
    and carries Python exceptions; the operating system (what happens when
    a program is launched) is a parameter of type [world]. *)

From Stdlib Require Import String Ascii List ZArith NArith Bool Lia.
Import ListNotations.

Local Open Scope string_scope.
Local Open Scope list_scope.

(** ** Python strings *)

(** A Python [str] is modelled by [string]; each [ascii] stands for one
    character with code point below 256. *)

Notation "s +s t" := (String.append s t) (at level 50, left associativity).

(** The line terminator [print] appends. *)
Definition newline : string := String (ascii_of_nat 10) "".

(** [str.isspace] on one character: U+0009..U+000D, U+001C..U+0020, U+0085
    and U+00A0 are the white space characters below 256. *)
Definition isspace (c : ascii) : bool :=
  let n := N_of_ascii c in
  ((9 <=? n) && (n <=? 13) || (28 <=? n) && (n <=? 32) || (n =? 133) || (n =? 160))%N.

(** The token collected so far, emitted when a separator or the end of the
    string is met: [str.split()] never yields an empty token. *)
Definition flush (acc : string) : list string :=
  match acc with
  | EmptyString => []
  | _ => [acc]
  end.

Fixpoint split_from (acc s : string) : list string :=
  match s with
  | EmptyString => flush acc
  | String c rest =>
      if isspace c then flush acc ++ split_from "" rest
      else split_from (acc +s String c "") rest
  end.

(** [s.split()] with no separator: maximal runs of non-space characters. *)
Definition split (s : string) : list string := split_from "" s.

(** A string with no white space character in it. *)
Fixpoint no_whitespace (s : string) : bool :=
  match s with
  | EmptyString => true
  | String c rest => negb (isspace c) && no_whitespace rest
  end.

(** ** The operating system *)

(** What a launched child process does: it terminates with a status and
    some captured standard output, or it never terminates. *)
Inductive child : Type :=
| Exits (returncode : Z) (output : string)
| Hangs.

(** [executable w path] tells whether [path] exists and can be executed;
    [behaviour w args] is what the process launched with the argument list
    [args] does. *)
Record world : Type := World {
  executable : string -> bool;
  behaviour : list string -> child
}.

(** ** Effects of the script *)

Inductive exn : Type :=
| SystemExit                          (* sys.exit() *)
| ValueError                          (* wrong number of values to unpack *)
| IndexError                          (* Popen on an empty argument list *)
| OSError                             (* FileNotFoundError, PermissionError *)
| CalledProcessError (returncode : Z) (* check_output, non-zero status *).

Inductive event : Type :=
| Output (s : string)          (* characters written to standard output *)
| Launch (args : list string) (* the launch of a child with [args] is tried *).

Inductive outcome (A : Type) : Type :=
| Return (a : A)
| Raise (e : exn)
| Blocked.
Arguments Return {A} a.
Arguments Raise {A} e.
Arguments Blocked {A}.

Definition M (A : Type) : Type := list event -> outcome A * list event.

Definition ret {A} (a : A) : M A := fun t => (Return a, t).

Definition raise {A} (e : exn) : M A := fun t => (Raise e, t).

Definition bind {A B} (m : M A) (k : A -> M B) : M B :=
  fun t =>
    match m t with
    | (Return a, t') => k a t'
    | (Raise e, t') => (Raise e, t')
    | (Blocked, t') => (Blocked, t')
    end.

Definition emit (e : event) : M unit := fun t => (Return tt, t ++ [e]).

Notation "x <- m ;; k" := (bind m (fun x => k))
  (at level 61, m at next level, right associativity).
Notation "m ;; k" := (bind m (fun _ => k))
  (at level 61, right associativity).
Notation "' pat <- m ;; k" := (bind m (fun x => match x with pat => k end))
  (at level 61, pat pattern, m at next level, right associativity).

(** [print(s)] *)
Definition print (s : string) : M unit := emit (Output (s +s newline)).

(** [sys.exit()] *)
Definition sys_exit : M unit := raise SystemExit.

(** [a, b, c, d = l] *)
Definition unpack4 (l : list string) : M (string * string * string * string) :=
  match l with
  | [a; b; c; d] => ret (a, b, c, d)
  | _ => raise ValueError
  end.

(** [subprocess.check_output(args)]: launch, wait for the child, return what
    it wrote; a child that cannot be started raises [OSError], one that ends
    with a non-zero status raises [CalledProcessError]. *)
Definition check_output (w : world) (args : list string) : M string :=
  match args with
  | [] => raise IndexError
  | path :: _ =>
      emit (Launch args) ;;
      if executable w path then
        match behaviour w args with
        | Exits returncode output =>
            if (returncode =? 0)%Z then ret output
            else raise (CalledProcessError returncode)
        | Hangs => fun t => (Blocked, t)
        end
      else raise OSError
  end.

(** ** The script *)

Definition basecmd : string := "/app/bin/linux/selscan".

Definition usage : string :=
  "call program as: python adhoc_runxp.py {in_tped1} {out1} {in_tped2} {out2}".

(** The right-hand side of the assignment to [full_cmd]; [+] associates to
    the left. *)
Definition full_cmd (in_tped1 out_popihh1 in_tped2 out_popihh2 : string) : string :=
  basecmd +s " --xpehh --tped " +s in_tped1 +s " --out " +s out_popihh1
    +s " --tped-ref " +s in_tped2 +s " --out2 " +s out_popihh2
    +s " --maf 0.05 --gap-scale 20000 --threads 15 ".

Definition main (w : world) (argv : list string) : M unit :=
  (if negb (length argv =? 5)%nat then
     print usage ;;
     sys_exit
   else ret tt) ;;
  '(in_tped1, out_popihh1, in_tped2, out_popihh2) <- unpack4 (skipn 1 argv) ;;
  let cmd := full_cmd in_tped1 out_popihh1 in_tped2 out_popihh2 in
  print cmd ;;
  _ <- check_output w (split basecmd) ;;
  ret tt.

(** ** The process *)

Inductive termination : Type :=
| Exit (status : Z)
| Never.

(** One run of [python adhoc_runxp.py ...]: the events in order, the
    exception reported on standard error if one escaped, and how the
    process ended. *)
Record process : Type := Process {
  events : list event;
  traceback : option exn;
  exit : termination
}.

(** The interpreter runs the module, whose last statement is [main()].  A
    [SystemExit] without a code ends the process with status 0 and no
    report; any other exception that escapes is reported and the status
    is 1. *)
Definition python (w : world) (argv : list string) : process :=
  match main w argv [] with
  | (Return _, t) => Process t None (Exit 0)
  | (Raise SystemExit, t) => Process t None (Exit 0)
  | (Raise e, t) => Process t (Some e) (Exit 1)
  | (Blocked, t) => Process t None Never
  end.

(** What was written to standard output, in order. *)
Fixpoint stdout_of (t : list event) : string :=
  match t with
  | [] => ""
  | Output s :: t' => s +s stdout_of t'
  | Launch _ :: t' => stdout_of t'
  end.

(** The argument lists of the launches tried, in order. *)
Fixpoint launches_of (t : list event) : list (list string) :=
  match t with
  | [] => []
  | Output _ :: t' => launches_of t'
  | Launch args :: t' => args :: launches_of t'
  end.

Definition stdout (p : process) : string := stdout_of (events p).
Definition launches (p : process) : list (list string) := launches_of (events p).

(** The events of every run with four arguments. *)
Definition four_events (a b c d : string) : list event :=
  [Output (full_cmd a b c d +s newline); Launch [basecmd]].

(** ** The command line the documentation describes *)

(** The token list of the selscan call, with the four paths in place. *)
Definition spec_template (in_tped_1 out_1 in_tped_2 out_2 : string) : list string :=
  [ basecmd; "--xpehh";
    "--tped"; in_tped_1;
    "--out"; out_1;
    "--tped-ref"; in_tped_2;
    "--out2"; out_2;
    "--maf"; "0.05"; "--gap-scale"; "20000"; "--threads"; "15" ].

(** The same, written out as one line with single spaces. *)
Definition spec_command_line (in_tped_1 out_1 in_tped_2 out_2 : string) : string :=
  String.concat " " (spec_template in_tped_1 out_1 in_tped_2 out_2).

(** The command line of the worked example, as the documentation prints it. *)
Definition example_command : string :=
  "/app/bin/linux/selscan --xpehh --tped tped_pop1.txt --out out1 --tped-ref tped_pop2.txt --out2 out2 --maf 0.05 --gap-scale 20000 --threads 15".

(** ** Worlds used in the examples *)

(** selscan replaced by a stub that exits with [status] at once. *)
Definition stub (status : Z) : world :=
  World (fun _ => true) (fun _ => Exits status "").

(** No selscan binary at [basecmd]. *)
Definition no_binary : world :=
  World (fun path => negb (String.eqb path basecmd)) (fun _ => Exits 0 "").

(** selscan never returns. *)
Definition stuck : world :=
  World (fun _ => true) (fun _ => Hangs).

Definition example_argv : list string :=
  ["adhoc_runxp.py"; "tped_pop1.txt"; "out1"; "tped_pop2.txt"; "out2"].

Example run_stub0 :
  python (stub 0) example_argv =
  Process
    [Output ("/app/bin/linux/selscan --xpehh --tped tped_pop1.txt --out out1 --tped-ref tped_pop2.txt --out2 out2 --maf 0.05 --gap-scale 20000 --threads 15 " +s newline);
     Launch ["/app/bin/linux/selscan"]]
    None (Exit 0).
Proof. reflexivity. Qed.

Example run_stub3 :
  traceback (python (stub 3) example_argv) = Some (CalledProcessError 3)
  /\ exit (python (stub 3) example_argv) = Exit 1.
Proof. split; reflexivity. Qed.

Example run_no_args :
  python (stub 0) ["adhoc_runxp.py"] =
  Process [Output (usage +s newline)] None (Exit 0).
Proof. reflexivity. Qed.

Example split_example :
  split "  a b   c " = ["a"; "b"; "c"].
Proof. reflexivity. Qed.

(** ** Strings and [split] *)

Lemma append_empty_r (s : string) : s +s "" = s.
Proof.
  induction s as [|c s IH]; simpl; [reflexivity | now rewrite IH].
Qed.

Lemma append_assoc (s t u : string) : (s +s t) +s u = s +s (t +s u).
Proof.
  induction s as [|c s IH]; simpl; [reflexivity | now rewrite IH].
Qed.

Lemma flush_nonempty (s : string) : s <> "" -> flush s = [s].
Proof.
  destruct s; [congruence | reflexivity].
Qed.

(** A run of non-space characters is collected into the current token. *)
Lemma split_from_word (word acc rest : string) :
  no_whitespace word = true ->
  split_from acc (word +s rest) = split_from (acc +s word) rest.
Proof.
  revert acc.
  induction word as [|c word IH]; intros acc Hword; simpl in *.
  - now rewrite append_empty_r.
  - apply andb_true_iff in Hword as [Hc Hword].
    apply negb_true_iff in Hc. rewrite Hc.
    rewrite (IH _ Hword), append_assoc. reflexivity.
Qed.

(** A token followed by one space is the first token of the result. *)
Lemma split_from_token (word rest : string) :
  word <> "" ->
  no_whitespace word = true ->
  split_from "" (word +s String " " rest) = word :: split_from "" rest.
Proof.
  intros Hne Hword.
  rewrite (split_from_word _ _ _ Hword). simpl.
  now rewrite (flush_nonempty _ Hne).
Qed.

(** [full_cmd] as its tokens, each followed by one space. *)
Lemma full_cmd_tokens (a b c d : string) :
  full_cmd a b c d =
  basecmd +s String " " ("--xpehh" +s String " " ("--tped" +s String " "
  (a +s String " " ("--out" +s String " "
  (b +s String " " ("--tped-ref" +s String " "
  (c +s String " " ("--out2" +s String " "
  (d +s String " " ("--maf" +s String " " ("0.05" +s String " "
  ("--gap-scale" +s String " " ("20000" +s String " "
  ("--threads" +s String " " ("15" +s String " " ""))))))))))))))).
Proof.
  unfold full_cmd.
  repeat rewrite append_assoc.
  reflexivity.
Qed.

Lemma split_basecmd : split basecmd = [basecmd].
Proof. reflexivity. Qed.

(** ** Runs of the script *)

Lemma four_arguments (argv : list string) :
  length (skipn 1 argv) = 4 <-> length argv = 5.
Proof.
  destruct argv as [|prog args]; simpl; lia.
Qed.

(** With an argument count other than four, the whole run is the usage
    line followed by [sys.exit()]. *)
Lemma python_usage (w : world) (argv : list string) :
  length argv <> 5 ->
  python w argv = Process [Output (usage +s newline)] None (Exit 0).
Proof.
  intros Hlen. unfold python, main, bind.
  apply Nat.eqb_neq in Hlen. rewrite Hlen. reflexivity.
Qed.

(** With four arguments, the run is decided by the world. *)
Lemma python_four (w : world) (prog a b c d : string) :
  python w [prog; a; b; c; d] =
  if executable w basecmd then
    match behaviour w [basecmd] with
    | Exits returncode _ =>
        if (returncode =? 0)%Z
        then Process (four_events a b c d) None (Exit 0)
        else Process (four_events a b c d)
               (Some (CalledProcessError returncode)) (Exit 1)
    | Hangs => Process (four_events a b c d) None Never
    end
  else Process (four_events a b c d) (Some OSError) (Exit 1).
Proof.
  unfold python, main, bind, check_output. rewrite split_basecmd.
  unfold bind, emit, print, emit, ret, raise. simpl.
  destruct (executable w basecmd); [|reflexivity].
  destruct (behaviour w [basecmd]) as [rc out|]; [|reflexivity].
  destruct (rc =? 0)%Z; reflexivity.
Qed.

Lemma events_four (w : world) (prog a b c d : string) :
  events (python w [prog; a; b; c; d]) = four_events a b c d.
Proof.
  rewrite python_four.
  destruct (executable w basecmd); [|reflexivity].
  destruct (behaviour w [basecmd]) as [rc out|]; [|reflexivity].
  destruct (rc =? 0)%Z; reflexivity.
Qed.

Lemma stdout_four (w : world) (prog a b c d : string) :
  stdout (python w [prog; a; b; c; d]) = full_cmd a b c d +s newline.
Proof.
  unfold stdout. rewrite events_four.
  unfold four_events. cbn [stdout_of]. apply append_empty_r.
Qed.

Lemma launches_four (w : world) (prog a b c d : string) :
  launches (python w [prog; a; b; c; d]) = [[basecmd]].
Proof.
  unfold launches. rewrite events_four. reflexivity.
Qed.

(** The script waits for selscan: if the child never ends, neither does
    the script. *)
Lemma python_waits (w : world) (prog a b c d : string) :
  executable w basecmd = true ->
  behaviour w [basecmd] = Hangs ->
  exit (python w [prog; a; b; c; d]) = Never.
Proof.
  intros Hx Hb. rewrite python_four, Hx, Hb. reflexivity.
Qed.

(** No run reports a [ValueError]: the unpacking is only reached with a
    list of five, whose tail has four elements. *)
Lemma no_value_error (w : world) (argv : list string) :
  traceback (python w argv) <> Some ValueError.
Proof.
  destruct (Nat.eq_dec (length argv) 5) as [Hlen|Hlen].
  - destruct argv as [|prog [|a [|b [|c [|d [|e l]]]]]]; try discriminate Hlen.
    rewrite python_four.
    destruct (executable w basecmd); [|discriminate].
    destruct (behaviour w [basecmd]) as [rc out|]; [|discriminate].
    destruct (rc =? 0)%Z; discriminate.
  - rewrite (python_usage w argv Hlen). discriminate.
Qed.

Example spec_command_line_example :
  spec_command_line "tped_pop1.txt" "out1" "tped_pop2.txt" "out2" = example_command.
Proof. reflexivity. Qed.

(** ** The properties *)

(** C1 (the code differs): with four arguments the script makes exactly one
    launch, and its argument list is the binary path alone,
    [["/app/bin/linux/selscan"]]; this is never the full command line
    [spec_template in_tped_1 out_1 in_tped_2 out_2], whatever the arguments
    and whatever the system does. *)
Theorem C1_child_started_without_arguments (w : world) (prog a b c d : string) :
  launches (python w [prog; a; b; c; d]) = [[basecmd]]
  /\ launches (python w [prog; a; b; c; d]) <> [spec_template a b c d].
Proof.
  rewrite launches_four. split; [reflexivity|].
  unfold spec_template. intros H. inversion H.
Qed.

(** C2: when the number of arguments after the program name is not four,
    the usage line is all that is written to standard output, no child
    process is started, no exception is reported and the process ends. *)
Theorem C2_usage_error (w : world) (argv : list string) :
  length (skipn 1 argv) <> 4 ->
  stdout (python w argv) = usage +s newline
  /\ launches (python w argv) = []
  /\ traceback (python w argv) = None
  /\ exists status, exit (python w argv) = Exit status.
Proof.
  intros Hcount.
  assert (Hlen : length argv <> 5) by (now rewrite <- four_arguments).
  rewrite (python_usage w argv Hlen).
  repeat split. exists 0%Z. reflexivity.
Qed.

Lemma C2_usage_error_witness :
  length (skipn 1 ["adhoc_runxp.py"; "tped_pop1.txt"; "out1"]) <> 4
  /\ stdout (python (stub 0) ["adhoc_runxp.py"; "tped_pop1.txt"; "out1"])
     = usage +s newline
  /\ launches (python (stub 0) ["adhoc_runxp.py"; "tped_pop1.txt"; "out1"]) = []
  /\ traceback (python (stub 0) ["adhoc_runxp.py"; "tped_pop1.txt"; "out1"]) = None
  /\ exists status,
       exit (python (stub 0) ["adhoc_runxp.py"; "tped_pop1.txt"; "out1"])
       = Exit status.
Proof.
  split; [simpl; lia|].
  apply (C2_usage_error (stub 0) ["adhoc_runxp.py"; "tped_pop1.txt"; "out1"]).
  simpl; lia.
Defined.

(** C3, as stated, fails: run without arguments, the script ends with
    status 0, not with a non-zero status. *)
Lemma C3_usage_status_counterexample :
  length (skipn 1 ["adhoc_runxp.py"]) <> 4
  /\ ~ (exists status,
          exit (python (stub 0) ["adhoc_runxp.py"]) = Exit status
          /\ status <> 0%Z).
Proof.
  split; [simpl; lia|].
  intros [status [Hexit Hstatus]].
  vm_compute in Hexit. inversion Hexit. congruence.
Qed.

(** C3, amended: when the number of arguments after the program name is
    not four, the process ends with exit status 0 ([sys.exit()] is called
    without a code), the usage line having been printed. *)
Theorem C3_usage_exit_status_zero (w : world) (argv : list string) :
  length (skipn 1 argv) <> 4 ->
  exit (python w argv) = Exit 0
  /\ stdout (python w argv) = usage +s newline.
Proof.
  intros Hcount.
  assert (Hlen : length argv <> 5) by (now rewrite <- four_arguments).
  rewrite (python_usage w argv Hlen). split; reflexivity.
Qed.

Lemma C3_usage_exit_status_zero_witness :
  length (skipn 1 ["adhoc_runxp.py"]) <> 4
  /\ exit (python (stub 3) ["adhoc_runxp.py"]) = Exit 0
  /\ stdout (python (stub 3) ["adhoc_runxp.py"]) = usage +s newline.
Proof.
  split; [simpl; lia|].
  apply (C3_usage_exit_status_zero (stub 3) ["adhoc_runxp.py"]).
  simpl; lia.
Defined.

(** C4, as stated, fails: for the arguments of the worked example the
    command that is printed is not the documented line; it has one more
    character at its end. *)
Lemma C4_printed_command_counterexample :
  full_cmd "tped_pop1.txt" "out1" "tped_pop2.txt" "out2" <> example_command
  /\ stdout (python (stub 0) example_argv) <> example_command +s newline.
Proof.
  split; apply String.eqb_neq; vm_compute; reflexivity.
Qed.

(** C4, amended: for the arguments ("tped_pop1.txt", "out1",
    "tped_pop2.txt", "out2") the line written to standard output is the
    documented command line followed by one space, then the newline of
    [print]. *)
Theorem C4_printed_command_trailing_space (w : world) (prog : string) :
  stdout (python w [prog; "tped_pop1.txt"; "out1"; "tped_pop2.txt"; "out2"])
  = example_command +s " " +s newline.
Proof.
  rewrite stdout_four. reflexivity.
Qed.

(** C5, as stated, fails: four non-empty arguments, the first with a space
    in it; the command splits into seventeen tokens, where the template
    has sixteen. *)
Lemma C5_tokens_counterexample :
  ("pop 1.tped" <> "" /\ "out1" <> "" /\ "pop2.tped" <> "" /\ "out2" <> "")
  /\ split (full_cmd "pop 1.tped" "out1" "pop2.tped" "out2")
     <> spec_template "pop 1.tped" "out1" "pop2.tped" "out2".
Proof.
  split; [repeat split; discriminate|].
  intros H. apply (f_equal (@length string)) in H.
  vm_compute in H. discriminate H.
Qed.

(** C5, amended: for four arguments that are non-empty and contain no
    white space, the command splits into exactly the tokens of the
    template, the four arguments in their places and in order, the tokens
    [--maf 0.05 --gap-scale 20000 --threads 15] at the end. *)
Theorem C5_tokens_match_template (a b c d : string) :
  a <> "" -> b <> "" -> c <> "" -> d <> "" ->
  no_whitespace a = true -> no_whitespace b = true ->
  no_whitespace c = true -> no_whitespace d = true ->
  split (full_cmd a b c d) = spec_template a b c d.
Proof.
  intros Ha Hb Hc Hd Wa Wb Wc Wd.
  unfold split, spec_template. rewrite full_cmd_tokens.
  repeat (rewrite split_from_token;
          [f_equal | first [assumption | discriminate]
                   | first [assumption | reflexivity]]).
Qed.

Lemma C5_tokens_match_template_witness :
  ("tped_pop1.txt" <> "" /\ "out1" <> "" /\ "tped_pop2.txt" <> "" /\ "out2" <> "")
  /\ (no_whitespace "tped_pop1.txt" = true /\ no_whitespace "out1" = true
      /\ no_whitespace "tped_pop2.txt" = true /\ no_whitespace "out2" = true)
  /\ split (full_cmd "tped_pop1.txt" "out1" "tped_pop2.txt" "out2")
     = spec_template "tped_pop1.txt" "out1" "tped_pop2.txt" "out2".
Proof.
  split; [repeat split; discriminate|].
  split; [repeat split|].
  apply (C5_tokens_match_template "tped_pop1.txt" "out1" "tped_pop2.txt" "out2");
    first [discriminate | reflexivity].
Defined.

(** C6: with four arguments and selscan (or a stub in its place) running to
    its end, the script ends with status 0 when the child's status is 0,
    and with a non-zero status when the child's status is not 0. *)
Theorem C6_status_propagation (w : world) (prog a b c d : string)
    (returncode : Z) (output : string) :
  executable w basecmd = true ->
  behaviour w [basecmd] = Exits returncode output ->
  (returncode = 0%Z -> exit (python w [prog; a; b; c; d]) = Exit 0)
  /\ (returncode <> 0%Z ->
      exists status,
        exit (python w [prog; a; b; c; d]) = Exit status /\ status <> 0%Z).
Proof.
  intros Hx Hb. rewrite python_four, Hx, Hb. split; intros Hrc.
  - subst returncode. reflexivity.
  - apply Z.eqb_neq in Hrc. rewrite Hrc. exists 1%Z. split; [reflexivity | lia].
Qed.

Lemma C6_status_propagation_witness :
  exit (python (stub 0) example_argv) = Exit 0
  /\ exists status,
       exit (python (stub 3) example_argv) = Exit status /\ status <> 0%Z.
Proof.
  split.
  - apply (C6_status_propagation (stub 0) "adhoc_runxp.py"
             "tped_pop1.txt" "out1" "tped_pop2.txt" "out2" 0 "");
      reflexivity.
  - apply (C6_status_propagation (stub 3) "adhoc_runxp.py"
             "tped_pop1.txt" "out1" "tped_pop2.txt" "out2" 3 "");
      first [reflexivity | lia].
Defined.

(** C7: with four arguments, when the binary path does not exist or cannot
    be executed, the [OSError] of the launch escapes and is reported, the
    process ends with status 1, and the launch was tried exactly once. *)
Theorem C7_binary_missing (w : world) (prog a b c d : string) :
  executable w basecmd = false ->
  traceback (python w [prog; a; b; c; d]) = Some OSError
  /\ exit (python w [prog; a; b; c; d]) = Exit 1
  /\ launches (python w [prog; a; b; c; d]) = [[basecmd]].
Proof.
  intros Hx. rewrite python_four, Hx. repeat split.
Qed.

Lemma C7_binary_missing_witness :
  executable no_binary basecmd = false
  /\ traceback (python no_binary example_argv) = Some OSError
  /\ exit (python no_binary example_argv) = Exit 1
  /\ launches (python no_binary example_argv) = [[basecmd]].
Proof.
  split; [reflexivity|].
  apply (C7_binary_missing no_binary "adhoc_runxp.py"
           "tped_pop1.txt" "out1" "tped_pop2.txt" "out2").
  reflexivity.
Defined.

(** C8: two runs with the same four arguments write the same characters to
    standard output, namely the command built from the arguments and a
    newline, whatever the program name and whatever selscan does in either
    run. *)
Theorem C8_command_deterministic (w1 w2 : world) (prog1 prog2 a b c d : string) :
  stdout (python w1 [prog1; a; b; c; d]) = stdout (python w2 [prog2; a; b; c; d])
  /\ stdout (python w1 [prog1; a; b; c; d]) = full_cmd a b c d +s newline.
Proof.
  rewrite !stdout_four. split; reflexivity.
Qed.

(** C9: with four arguments the run never prints the usage line, whatever
    the arguments are: it prints the command and goes on to launch the
    binary.  With four empty strings the command printed has the empty
    strings in the places of the paths. *)
Theorem C9_validation_is_count_only (w : world) (prog : string) :
  (forall a b c d : string,
      events (python w [prog; a; b; c; d])
      = [Output (full_cmd a b c d +s newline); Launch [basecmd]]
      /\ stdout (python w [prog; a; b; c; d]) <> usage +s newline)
  /\ events (python w [prog; ""; ""; ""; ""])
     = [Output ("/app/bin/linux/selscan --xpehh --tped  --out  --tped-ref  --out2  --maf 0.05 --gap-scale 20000 --threads 15 " +s newline);
        Launch ["/app/bin/linux/selscan"]].
Proof.
  split.
  - intros a b c d. rewrite events_four, stdout_four. split; [reflexivity|].
    rewrite full_cmd_tokens. discriminate.
  - rewrite events_four. reflexivity.
Qed.

(** C10: when the count check passes, that is when [sys.argv] has five
    elements, unpacking [sys.argv[1:]] into the four variables returns
    them, leaving the trace as it was, and the run reports no
    [ValueError]. *)
Theorem C10_unpacking_succeeds (w : world) (argv : list string) :
  length argv = 5 ->
  (exists in_tped1 out_popihh1 in_tped2 out_popihh2 : string,
      forall t,
        unpack4 (skipn 1 argv) t
        = (Return (in_tped1, out_popihh1, in_tped2, out_popihh2), t))
  /\ traceback (python w argv) <> Some ValueError.
Proof.
  intros Hlen. split; [|apply no_value_error].
  destruct argv as [|prog [|a [|b [|c [|d [|e l]]]]]]; try discriminate Hlen.
  exists a, b, c, d. reflexivity.
Qed.

Lemma C10_unpacking_succeeds_witness :
  length example_argv = 5
  /\ (exists in_tped1 out_popihh1 in_tped2 out_popihh2 : string,
         forall t,
           unpack4 (skipn 1 example_argv) t
           = (Return (in_tped1, out_popihh1, in_tped2, out_popihh2), t))
  /\ traceback (python (stub 0) example_argv) <> Some ValueError.
Proof.
  split; [reflexivity|].
  apply (C10_unpacking_succeeds (stub 0) example_argv). reflexivity.
Defined.

(** ** Further properties of the script *)

(** Case analysis on a run: the count of [sys.argv], then what the world
    does with the launch. *)
Ltac by_count w argv :=
  let Hlen := fresh "Hlen" in
  destruct (Nat.eq_dec (length argv) 5) as [Hlen|Hlen];
  [ destruct argv as [|?prog [|?a [|?b [|?c [|?d [|? ?]]]]]];
    try discriminate Hlen; rewrite ?python_four
  | rewrite ?(python_usage w argv Hlen) ].

Ltac by_world w :=
  let Hx := fresh "Hx" in
  let Hb := fresh "Hb" in
  let Hrc := fresh "Hrc" in
  destruct (executable w basecmd) eqn:Hx;
  [ destruct (behaviour w [basecmd]) as [?rc ?out|] eqn:Hb;
    [ destruct (Z.eqb_spec rc 0) as [Hrc|Hrc] | ] | ].

(** Any string followed by one space: its tokens, then those of the rest. *)
Lemma split_from_separator (s acc rest : string) :
  split_from acc (s +s String " " rest) = split_from acc s ++ split_from "" rest.
Proof.
  revert acc.
  induction s as [|ch s IH]; intros acc; simpl.
  - reflexivity.
  - destruct (isspace ch).
    + now rewrite IH, app_assoc.
    + apply IH.
Qed.

(** A run of non-space characters up to a space is determined by the
    string it begins. *)
Lemma word_space_inj (word word' rest rest' : string) :
  no_whitespace word = true ->
  no_whitespace word' = true ->
  word +s String " " rest = word' +s String " " rest' ->
  word = word' /\ rest = rest'.
Proof.
  revert word'.
  induction word as [|ch word IH]; intros [|ch' word'] Hw Hw' Heq; simpl in *.
  - injection Heq as ->. split; reflexivity.
  - injection Heq as <- _. discriminate Hw'.
  - injection Heq as -> _. discriminate Hw.
  - injection Heq as -> Heq.
    apply andb_true_iff in Hw as [_ Hw].
    apply andb_true_iff in Hw' as [_ Hw'].
    destruct (IH word' Hw Hw' Heq) as [-> ->]. split; reflexivity.
Qed.

(** X1: the program name [sys.argv[0]] is never read: two runs that differ
    only in it are the same run. *)
Theorem X1_program_name_ignored (w : world) (prog1 prog2 : string)
    (args : list string) :
  python w (prog1 :: args) = python w (prog2 :: args).
Proof.
  destruct (Nat.eq_dec (length args) 4) as [Hlen|Hlen].
  - destruct args as [|a [|b [|c [|d [|e l]]]]]; try discriminate Hlen.
    rewrite !python_four. reflexivity.
  - rewrite !python_usage; [reflexivity | simpl; lia | simpl; lia].
Qed.


(** X3: the four arguments reach nothing but the printed line: the launch,
    the exception reported and the way the process ends are the same for
    any two lists of four arguments. *)
Theorem X3_arguments_do_not_reach_child (w : world)
    (prog a b c d prog' a' b' c' d' : string) :
  launches (python w [prog; a; b; c; d]) = launches (python w [prog'; a'; b'; c'; d'])
  /\ traceback (python w [prog; a; b; c; d]) = traceback (python w [prog'; a'; b'; c'; d'])
  /\ exit (python w [prog; a; b; c; d]) = exit (python w [prog'; a'; b'; c'; d']).
Proof.
  rewrite !launches_four, !python_four.
  by_world w; repeat split.
Qed.

(** X4: there is no timeout: a run never ends exactly when the count check
    passes, the binary can be executed and the child never ends. *)
Theorem X4_never_ends_iff_child_hangs (w : world) (argv : list string) :
  exit (python w argv) = Never
  <-> length argv = 5
      /\ executable w basecmd = true
      /\ behaviour w [basecmd] = Hangs.
Proof.
  by_count w argv.
  - by_world w; simpl; split;
      try discriminate; try (intros [_ [? ?]]; discriminate);
      intros _; repeat split.
  - simpl. split; [discriminate | intros [? _]; contradiction].
Qed.

(** X5: exit status 0 does not tell that selscan ran: a run ends with
    status 0 exactly when the count check fails, or the binary can be
    executed and the child ends with status 0. *)
Theorem X5_exit_zero_iff (w : world) (argv : list string) :
  exit (python w argv) = Exit 0
  <-> length argv <> 5
      \/ (executable w basecmd = true
          /\ exists output, behaviour w [basecmd] = Exits 0 output).
Proof.
  by_count w argv.
  - by_world w; simpl; split; intros H.
    + right. split; [reflexivity|]. subst rc. exists out. reflexivity.
    + reflexivity.
    + discriminate H.
    + destruct H as [H | [_ [o H]]]; [now elim H|].
      injection H as H _. contradiction.
    + discriminate H.
    + destruct H as [H | [_ [o H]]]; [now elim H | discriminate H].
    + discriminate H.
    + destruct H as [H | [H _]]; [now elim H | discriminate H].
  - simpl. split; [intros _; now left | reflexivity].
Qed.

(** X6: the exceptions a run can report.  Only two escape: [OSError], when
    the count check passes and the binary cannot be executed, and
    [CalledProcessError] with the child's status, when the child ends with
    a status other than 0. *)
Theorem X6_traceback_iff (w : world) (argv : list string) (e : exn) :
  traceback (python w argv) = Some e
  <-> length argv = 5
      /\ ((executable w basecmd = false /\ e = OSError)
          \/ (executable w basecmd = true
              /\ exists returncode output,
                   behaviour w [basecmd] = Exits returncode output
                   /\ returncode <> 0%Z
                   /\ e = CalledProcessError returncode)).
Proof.
  by_count w argv.
  - by_world w; simpl; split; intros H.
    + discriminate H.
    + destruct H as [_ [[H _] | [_ [rc' [o [H [Hne _]]]]]]]; [discriminate H|].
      injection H as <- _. now elim Hne.
    + injection H as <-. split; [reflexivity|]. right.
      split; [reflexivity|]. exists rc, out. repeat split. exact Hrc.
    + destruct H as [_ [[H _] | [_ [rc' [o [H [_ ->]]]]]]]; [discriminate H|].
      injection H as <- _. reflexivity.
    + discriminate H.
    + destruct H as [_ [[H _] | [_ [rc' [o [H _]]]]]]; discriminate H.
    + injection H as <-. split; [reflexivity|]. left. split; reflexivity.
    + destruct H as [_ [[_ ->] | [H _]]]; [reflexivity | discriminate H].
  - simpl. split; [discriminate | intros [H _]; contradiction].
Qed.


(** X8: the tokens of the command, for any four strings: the fixed tokens
    in their places, and between them the tokens of each argument, which
    are none for an empty argument and several for one with spaces. *)
Theorem X8_tokens_of_any_command (a b c d : string) :
  split (full_cmd a b c d)
  = [basecmd; "--xpehh"; "--tped"] ++ split a
    ++ ["--out"] ++ split b
    ++ ["--tped-ref"] ++ split c
    ++ ["--out2"] ++ split d
    ++ ["--maf"; "0.05"; "--gap-scale"; "20000"; "--threads"; "15"].
Proof.
  unfold split. rewrite full_cmd_tokens.
  repeat rewrite split_from_separator.
  reflexivity.
Qed.

(** X9: for arguments without white space the printed command tells the
    arguments: two lists of four such arguments that give the same command
    are the same list. *)
Theorem X9_command_determines_arguments (a b c d a' b' c' d' : string) :
  no_whitespace a = true -> no_whitespace b = true ->
  no_whitespace c = true -> no_whitespace d = true ->
  no_whitespace a' = true -> no_whitespace b' = true ->
  no_whitespace c' = true -> no_whitespace d' = true ->
  full_cmd a b c d = full_cmd a' b' c' d' ->
  a = a' /\ b = b' /\ c = c' /\ d = d'.
Proof.
  intros Wa Wb Wc Wd Wa' Wb' Wc' Wd' H.
  rewrite !full_cmd_tokens in H.
  repeat match type of H with
         | _ +s String " " _ = _ +s String " " _ =>
             apply word_space_inj in H;
             [ let E := fresh "E" in destruct H as [E H]
             | first [assumption | reflexivity]
             | first [assumption | reflexivity] ]
         end.
  repeat split; assumption.
Qed.

Lemma X9_command_determines_arguments_witness :
  (no_whitespace "tped_pop1.txt" = true /\ no_whitespace "out1" = true
   /\ no_whitespace "tped_pop2.txt" = true /\ no_whitespace "out2" = true)
  /\ full_cmd "tped_pop1.txt" "out1" "tped_pop2.txt" "out2"
     = full_cmd "tped_pop1.txt" "out1" "tped_pop2.txt" "out2"
  /\ ("tped_pop1.txt" = "tped_pop1.txt" /\ "out1" = "out1"
      /\ "tped_pop2.txt" = "tped_pop2.txt" /\ "out2" = "out2").
Proof.
  split; [repeat split|]. split; [reflexivity|].
  apply (X9_command_determines_arguments
           "tped_pop1.txt" "out1" "tped_pop2.txt" "out2"
           "tped_pop1.txt" "out1" "tped_pop2.txt" "out2");
    reflexivity.
Defined.

(** X10: nothing is quoted: an argument that holds the text [ --out ] gives
    the same command as two arguments split at that text, so with spaces
    allowed the command does not tell where an argument ends. *)
Theorem X10_arguments_are_not_quoted (a x b c d : string) :
  full_cmd (a +s " --out " +s x) b c d
  = full_cmd a (x +s " --out " +s b) c d.
Proof.
  unfold full_cmd. repeat rewrite append_assoc. reflexivity.
Qed.
